(** * Predictive-maintenance analysis pipeline: [src/App.tsx]

    A shallow embedding of the [App] component of the sensor failure
    prediction application.  The component owns four [useState] cells
    ([state], [progress], [status], [results]) and four handlers
    ([processData], [handleFileSelect], [handleUseSampleData],
    [handleReset]); its JSX decides which controls are on screen in each
    state.

    The handlers are effectful: they write the state cells, read the clock
    ([Date.now()]), wait on timers, log to the console, raise alerts and may
    be interrupted by an exception.  They are modelled in a small monad whose
    computations take a [World] and return a completion (normal or thrown), the
    world they leave behind and the list of events they emitted, in order.
    Side effects performed before an exception is thrown persist, as in
    JavaScript.

    A handler is first given in one piece, as a run that nothing interleaves
    with.  The handlers are [async], though: further down each run is cut at
    its [await]s into the stretches that execute without interruption, and
    the component is a transition system in which pending runs are resumed in
    any order between the operator's requests. *)

From Stdlib Require Import ZArith QArith String List Bool Lia.
Import ListNotations.
Local Open Scope Z_scope.
Local Open Scope string_scope.

(** ** Data model *)

(** [type AppState = 'upload' | 'processing' | 'results'] (App.tsx, line 11). *)
Inductive AppState : Type :=
| Upload
| Processing
| Results.

(** The label carried by a prediction; [processData] compares it with the
    string literals ['failure'] and ['normal'] (lines 46-47). *)
Inductive Label : Type :=
| failure
| normal.

Definition Label_eqb (a b : Label) : bool :=
  match a, b with
  | failure, failure => true
  | normal, normal => true
  | _, _ => false
  end.

(** Modelled from the spec: the declaration of [SensorData] lives in
    [types/sensor], which is not part of the sources.  Section 3 describes a
    record as an identifier and a set of named numeric channels whose values
    are finite numbers or an explicit missing marker. *)
Record SensorData : Type := mkSensorData {
  sensor_id : Z;
  channels : list (string * option Q)
}.

(** Modelled from the spec: the feature vector of section 3, the same
    identifier and a mapping from feature name to value. *)
Record FeatureVector : Type := mkFeatureVector {
  fv_id : Z;
  features : list (string * Q)
}.

(** Modelled from the spec: the confidence of section 4.3 is the fraction of
    rules that agree with the majority label; it is kept as the pair
    numerator / denominator. *)
Record Confidence : Type := mkConfidence {
  agreeing : nat;
  voters : nat
}.

(** Modelled from the spec: the [Prediction] of section 3 (identifier, label,
    confidence).  The field read by [processData] is [prediction]. *)
Record Prediction : Type := mkPrediction {
  pred_id : Z;
  prediction : Label;
  confidence : Confidence
}.

(** The object literal built by [processData] (lines 44-50). *)
Record AnalysisResults : Type := mkAnalysisResults {
  totalSamples : nat;
  failurePredictions : nat;
  normalPredictions : nat;
  predictions : list Prediction;
  processingTime : Z
}.

(** Modelled from the spec: the error taxonomy of section 7.  The sources
    define no error class of their own; these are the values a stage may
    throw. *)
Inductive PipelineError : Type :=
| FormatError
| EmptyInputError
| ConfigurationError
| ModelUnavailableError
| BusyError.

(** Modelled from the spec: the stages of section 2 and the stage each error
    of section 7 originates from. *)
Inductive Stage : Type :=
| Ingestion
| FeaturePreparation
| Classification
| Orchestration.

Definition stage_of (e : PipelineError) : Stage :=
  match e with
  | FormatError => Ingestion
  | EmptyInputError => Ingestion
  | ConfigurationError => FeaturePreparation
  | ModelUnavailableError => Classification
  | BusyError => Orchestration
  end.

(** Modelled from the spec: a rule of section 4.3 is a conjunction of
    threshold predicates [feature > threshold]; when all of them hold the rule
    votes [failure], otherwise [normal]. *)
Definition Rule : Type := list (string * Q).

(** ** The application state *)

(** The four [useState] cells of [App] (lines 14-17). *)
Record AppModel : Type := mkAppModel {
  state : AppState;
  progress : Z;
  status : string;
  results : option AnalysisResults
}.

(** [useState] initial values. *)
Definition initialApp : AppModel :=
  {| state := Upload; progress := 0; status := EmptyString; results := None |}.

(** What a handler can observe or change: the state cells, the wall clock
    read by [Date.now()], the lateness of the timers still to fire, and the
    rule configuration available to the classifier ([None] when it failed to
    load). *)
Record World : Type := mkWorld {
  ui : AppModel;
  clock : Z;
  lags : list Z;
  config : option (list Rule)
}.

(** What a handler emits, in order. *)
Inductive Event : Type :=
| EvState (s : AppState)
| EvProgress (p : Z)
| EvStatus (m : string)
| EvResults (r : option AnalysisResults)
| EvTimeout (ms : Z)
| EvPredict (rows : nat)
| EvConsoleError (m : string) (e : PipelineError)
| EvAlert (m : string).

(** ** The effect monad *)

Inductive Completion (A : Type) : Type :=
| Normal (a : A)
| Throw (e : PipelineError).
Arguments Normal {A} a.
Arguments Throw {A} e.

Record Run (A : Type) : Type := mkRun {
  outcome : Completion A;
  final : World;
  trace : list Event
}.
Arguments mkRun {A} _ _ _.
Arguments outcome {A} _.
Arguments final {A} _.
Arguments trace {A} _.

Definition M (A : Type) : Type := World -> Run A.

Definition ret {A : Type} (a : A) : M A :=
  fun w => mkRun (Normal a) w [].

Definition throw {A : Type} (e : PipelineError) : M A :=
  fun w => mkRun (Throw e) w [].

Definition bind {A B : Type} (m : M A) (k : A -> M B) : M B :=
  fun w =>
    let r := m w in
    match outcome r with
    | Normal a =>
        let r' := k a (final r) in
        mkRun (outcome r') (final r') (trace r ++ trace r')
    | Throw e => mkRun (Throw e) (final r) (trace r)
    end.

(** [try { body } catch (error) { handler }]. *)
Definition tryCatch {A : Type} (body : M A) (handler : PipelineError -> M A) : M A :=
  fun w =>
    let r := body w in
    match outcome r with
    | Normal a => r
    | Throw e =>
        let r' := handler e (final r) in
        mkRun (outcome r') (final r') (trace r ++ trace r')
    end.

Declare Scope js_scope.
Delimit Scope js_scope with js.
Notation "x <- m ;; k" := (bind m (fun x => k))
  (at level 61, m at next level, right associativity) : js_scope.
Notation "m ;; k" := (bind m (fun _ => k))
  (at level 61, right associativity) : js_scope.
Local Open Scope js_scope.

Definition emit (e : Event) : M unit :=
  fun w => mkRun (Normal tt) w [e].

Definition modifyUi (f : AppModel -> AppModel) : M unit :=
  fun w =>
    mkRun (Normal tt)
      {| ui := f (ui w); clock := clock w; lags := lags w; config := config w |} [].

Definition setState (s : AppState) : M unit :=
  modifyUi (fun m => {| state := s; progress := progress m;
                        status := status m; results := results m |}) ;;
  emit (EvState s).

Definition setProgress (p : Z) : M unit :=
  modifyUi (fun m => {| state := state m; progress := p;
                        status := status m; results := results m |}) ;;
  emit (EvProgress p).

Definition setStatus (s : string) : M unit :=
  modifyUi (fun m => {| state := state m; progress := progress m;
                        status := s; results := results m |}) ;;
  emit (EvStatus s).

Definition setResults (r : option AnalysisResults) : M unit :=
  modifyUi (fun m => {| state := state m; progress := progress m;
                        status := status m; results := r |}) ;;
  emit (EvResults r).

(** [Date.now()]. *)
Definition dateNow : M Z :=
  fun w => mkRun (Normal (clock w)) w [].

(** [await new Promise(resolve => setTimeout(resolve, ms))]: when the
    continuation resumes the clock reads [ms] more, give or take what the
    environment decides (the next entry of [lags], of either sign: the clock
    may be set back). *)
Definition sleep (ms : Z) : M unit :=
  fun w =>
    mkRun (Normal tt)
      {| ui := ui w;
         clock := clock w + ms + hd 0 (lags w);
         lags := tl (lags w);
         config := config w |}
      [EvTimeout ms].

Definition consoleError (m : string) (e : PipelineError) : M unit :=
  emit (EvConsoleError m e).

Definition alert (m : string) : M unit :=
  emit (EvAlert m).

(** [for (const x of xs) { body }]. *)
Fixpoint forOf {A : Type} (xs : list A) (body : A -> M unit) : M unit :=
  match xs with
  | [] => ret tt
  | x :: rest => body x ;; forOf rest body
  end.

(** ** The classifier

    [utils/mlPredictor] is not part of the sources; [App] only constructs a
    [MockRandomForestClassifier] and calls [predict] on the whole data
    sequence. *)

(** Modelled from the spec: the imputation policy of section 4.2, a missing
    channel value counts as 0. *)
Definition impute (v : option Q) : Q :=
  match v with
  | Some q => q
  | None => 0%Q
  end.

(** Modelled from the spec: [prepare] of section 4.2, one feature vector per
    record, with the record's identifier. *)
Definition prepare (r : SensorData) : FeatureVector :=
  {| fv_id := sensor_id r;
     features := map (fun c => (fst c, impute (snd c))) (channels r) |}.

(** Modelled from the spec: the value of a named feature, 0 when the vector
    does not carry it. *)
Fixpoint feature (fs : list (string * Q)) (name : string) : Q :=
  match fs with
  | [] => 0%Q
  | (n, v) :: rest => if String.eqb n name then v else feature rest name
  end.

(** Modelled from the spec: one threshold predicate, [feature > threshold]. *)
Definition exceeds (fv : FeatureVector) (c : string * Q) : bool :=
  negb (Qle_bool (feature (features fv) (fst c)) (snd c)).

(** Modelled from the spec: the vote of one rule (section 4.3). *)
Definition vote (fv : FeatureVector) (rule : Rule) : Label :=
  if forallb (exceeds fv) rule then failure else normal.

Definition count_label (l : Label) (votes : list Label) : nat :=
  length (filter (Label_eqb l) votes).

(** Modelled from the spec: [classify] of section 4.3, the majority vote of
    the rules, ties going to [normal], with the fraction of agreeing rules as
    confidence. *)
Definition classify (rules : list Rule) (fv : FeatureVector) : Prediction :=
  let votes := map (vote fv) rules in
  let f := count_label failure votes in
  let n := count_label normal votes in
  if (n <? f)%nat
  then {| pred_id := fv_id fv; prediction := failure;
          confidence := {| agreeing := f; voters := length rules |} |}
  else {| pred_id := fv_id fv; prediction := normal;
          confidence := {| agreeing := n; voters := length rules |} |}.

(** Modelled from the spec: the classifier object holds the rule set it
    loaded, if any. *)
Record Classifier : Type := mkClassifier {
  rules : option (list Rule)
}.

(** Modelled from the spec: [new MockRandomForestClassifier()] picks up the
    rule configuration of its environment. *)
Definition newMockRandomForestClassifier : M Classifier :=
  fun w => mkRun (Normal {| rules := config w |}) w [].

(** Modelled from the spec: [classifier.predict(data)] prepares and classifies
    every record independently, in input order; it fails with
    [ModelUnavailableError] only when the rule set did not load (section
    4.3). *)
Definition predict (c : Classifier) (data : list SensorData) : M (list Prediction) :=
  emit (EvPredict (length data)) ;;
  match rules c with
  | None => throw ModelUnavailableError
  | Some rs => ret (map (fun r => classify rs (prepare r)) data)
  end.

(** ** [processData] (lines 19-54) *)

Module Step.
Record t : Type := mk { message : string; progress : Z }.
End Step.

Definition steps : list Step.t :=
  [ Step.mk "Validating data format..." 20;
    Step.mk "Preprocessing sensor data..." 40;
    Step.mk "Loading Random Forest model..." 60;
    Step.mk "Running predictions..." 80;
    Step.mk "Generating analysis report..." 100 ].

Definition processData (data : list SensorData) : M unit :=
  setState Processing ;;
  setProgress 0 ;;
  startTime <- dateNow ;;
  classifier <- newMockRandomForestClassifier ;;
  forOf steps (fun step =>
    setStatus (Step.message step) ;;
    setProgress (Step.progress step) ;;
    sleep 500) ;;
  predictions <- predict classifier data ;;
  endTime <- dateNow ;;
  let processingTime := endTime - startTime in
  let analysisResults :=
    {| totalSamples := length data;
       failurePredictions :=
         length (filter (fun p => Label_eqb (prediction p) failure) predictions);
       normalPredictions :=
         length (filter (fun p => Label_eqb (prediction p) normal) predictions);
       predictions := predictions;
       processingTime := processingTime |} in
  setResults (Some analysisResults) ;;
  setState Results.

(** ** The other handlers (lines 56-76) *)

Definition handleReset : M unit :=
  setState Upload ;;
  setProgress 0 ;;
  setStatus EmptyString ;;
  setResults None.

Definition fileErrorPrefix : string := "Error processing file:".

Definition fileErrorAlert : string :=
  "Error processing file. Please check the format and try again.".

Section Handlers.

(** [utils/csvParser] is not part of the sources: the parser and the sample
    generator are parameters.  Awaiting [parseCSV(file)] either rejects with
    an error or resolves with the data rows. *)
Variable File : Type.
Variable parseCSV : File -> PipelineError + list SensorData.
Variable generateSampleData : list SensorData.

Definition awaitParseCSV (file : File) : M (list SensorData) :=
  match parseCSV file with
  | inl e => throw e
  | inr data => ret data
  end.

Definition handleFileSelect (file : File) : M unit :=
  tryCatch
    (data <- awaitParseCSV file ;;
     processData data)
    (fun error =>
       consoleError fileErrorPrefix error ;;
       alert fileErrorAlert).

Definition handleUseSampleData : M unit :=
  let sampleData := generateSampleData in
  processData sampleData.

End Handlers.

Arguments awaitParseCSV {File} parseCSV file.
Arguments handleFileSelect {File} parseCSV file.

(** ** What is on screen (lines 78-176) *)

Inductive Widget : Type :=
| NewAnalysisButton
| FileUploadPanel (isProcessing : bool)
| ProgressBar (progress : Z) (status : string)
| ResultsView (r : AnalysisResults).

Inductive Handler : Type :=
| HandleFileSelect
| HandleUseSampleData
| HandleReset.

(** The conditional renderings of the JSX, top to bottom. *)
Definition render (m : AppModel) : list Widget :=
  (match state m with Results => [NewAnalysisButton] | _ => [] end) ++
  (match state m with Upload => [FileUploadPanel false] | _ => [] end) ++
  (match state m with Processing => [ProgressBar (progress m) (status m)] | _ => [] end) ++
  (match state m, results m with
   | Results, Some r => [ResultsView r]
   | _, _ => []
   end).

(** The handlers a widget is wired to ([onClick], [onFileSelect],
    [onUseSampleData]). *)
Definition handlersOf (x : Widget) : list Handler :=
  match x with
  | NewAnalysisButton => [HandleReset]
  | FileUploadPanel _ => [HandleFileSelect; HandleUseSampleData]
  | ProgressBar _ _ => []
  | ResultsView _ => []
  end.

Definition offered (m : AppModel) : list Handler :=
  flat_map handlersOf (render m).

(** ** Observations on a run *)

(** The percentages passed to [setProgress], in order. *)
Fixpoint percentages (tr : list Event) : list Z :=
  match tr with
  | [] => []
  | EvProgress p :: rest => p :: percentages rest
  | _ :: rest => percentages rest
  end.

(** A progress notification is a status message with its percentage: a
    [setStatus] immediately followed by a [setProgress]. *)
Fixpoint notifications (tr : list Event) : list (string * Z) :=
  match tr with
  | [] => []
  | EvStatus m :: rest =>
      match rest with
      | EvProgress p :: rest' => (m, p) :: notifications rest'
      | _ => notifications rest
      end
  | _ :: rest => notifications rest
  end.

Fixpoint strictlyIncreasing (ps : list Z) : bool :=
  match ps with
  | [] => true
  | p :: rest =>
      match rest with
      | [] => true
      | q :: _ => Z.ltb p q && strictlyIncreasing rest
      end
  end.

Fixpoint finalPercentage (ps : list Z) : option Z :=
  match ps with
  | [] => None
  | p :: rest =>
      match rest with
      | [] => Some p
      | _ :: _ => finalPercentage rest
      end
  end.

Definition isCompleted (e : Event) : bool :=
  match e with
  | EvState Results => true
  | _ => false
  end.

(** The run reached the completed state: it performed [setState('results')]. *)
Definition reachesCompleted (tr : list Event) : bool :=
  existsb isCompleted tr.

Fixpoint alerts (tr : list Event) : list string :=
  match tr with
  | [] => []
  | EvAlert m :: rest => m :: alerts rest
  | _ :: rest => alerts rest
  end.

Fixpoint storedResults (tr : list Event) : list AnalysisResults :=
  match tr with
  | [] => []
  | EvResults (Some r) :: rest => r :: storedResults rest
  | _ :: rest => storedResults rest
  end.

Fixpoint predictCalls (tr : list Event) : nat :=
  match tr with
  | [] => 0%nat
  | EvPredict _ :: rest => S (predictCalls rest)
  | _ :: rest => predictCalls rest
  end.

(** The clock and the pending lateness after [n] timers of 500 ms fired. *)
Fixpoint afterTimers (n : nat) (c : Z) (l : list Z) : Z * list Z :=
  match n with
  | O => (c, l)
  | S k => afterTimers k (c + 500 + hd 0 l) (tl l)
  end.

(** What [processData] emits before it calls the classifier. *)
Definition preludeEvents : list Event :=
  [ EvState Processing; EvProgress 0;
    EvStatus "Validating data format..."; EvProgress 20; EvTimeout 500;
    EvStatus "Preprocessing sensor data..."; EvProgress 40; EvTimeout 500;
    EvStatus "Loading Random Forest model..."; EvProgress 60; EvTimeout 500;
    EvStatus "Running predictions..."; EvProgress 80; EvTimeout 500;
    EvStatus "Generating analysis report..."; EvProgress 100; EvTimeout 500 ].

(** The state cells when the loop over [steps] has finished. *)
Definition uiAfterSteps (u : AppModel) : AppModel :=
  {| state := Processing; progress := 100;
     status := "Generating analysis report..."; results := results u |}.

(** The try block of [handleFileSelect]. *)
Definition fileSelectBody {File : Type}
    (parseCSV : File -> PipelineError + list SensorData) (file : File) : M unit :=
  data <- awaitParseCSV parseCSV file ;;
  processData data.

(** ** Concrete inputs

    The scenario of section 8 of the specification: three rows and the single
    rule [temperature > 80 and vibration > 5]. *)

Definition scenarioRows : list SensorData :=
  [ {| sensor_id := 1;
       channels := [("temperature", Some (90 # 1)); ("vibration", Some (8 # 1))] |};
    {| sensor_id := 2;
       channels := [("temperature", Some (40 # 1)); ("vibration", Some (1 # 1))] |};
    {| sensor_id := 3;
       channels := [("temperature", Some (85 # 1)); ("vibration", Some (6 # 1))] |} ].

Definition scenarioRules : list Rule :=
  [ [("temperature", 80 # 1); ("vibration", 5 # 1)] ].

(** A freshly mounted component with the rules loaded. *)
Definition scenarioWorld : World :=
  {| ui := initialApp; clock := 1000; lags := [3; 0; 12]; config := Some scenarioRules |}.

(** The same world at a later time and with other timer lateness. *)
Definition laterWorld : World :=
  {| ui := initialApp; clock := 99000; lags := [40; 40; 40; 40; 40; 40];
     config := Some scenarioRules |}.

(** A freshly mounted component whose rule configuration failed to load. *)
Definition unavailableWorld : World :=
  {| ui := initialApp; clock := 1000; lags := []; config := None |}.

(** A parser that rejects its file as malformed, and one that yields the
    scenario rows. *)
Definition rejectingParser (_ : unit) : PipelineError + list SensorData :=
  inl FormatError.

Definition scenarioParser (_ : unit) : PipelineError + list SensorData :=
  inr scenarioRows.

(** ** More observations *)

Fixpoint consoleErrors (tr : list Event) : list PipelineError :=
  match tr with
  | [] => []
  | EvConsoleError _ e :: rest => e :: consoleErrors rest
  | _ :: rest => consoleErrors rest
  end.

(** The world a completed sample run leaves behind. *)
Definition completedWorld : World :=
  final (handleUseSampleData scenarioRows scenarioWorld).

(** A promise that has settled: rejected with an error or resolved with a
    value. *)
Definition settle {A : Type} (x : PipelineError + A) : M A :=
  match x with
  | inl e => throw e
  | inr a => ret a
  end.

(** ** The handlers over an arbitrary classifier

    [processData] again, line by line, with the two calls into
    [utils/mlPredictor] left open: what [new MockRandomForestClassifier()]
    yields or throws, and what [predict] yields or throws. *)

Section AnyClassifier.

Variable Model : Type.
Variable construct : PipelineError + Model.
Variable runPredict : Model -> list SensorData -> PipelineError + list Prediction.

Definition processDataWith (data : list SensorData) : M unit :=
  setState Processing ;;
  setProgress 0 ;;
  startTime <- dateNow ;;
  classifier <- settle construct ;;
  forOf steps (fun step =>
    setStatus (Step.message step) ;;
    setProgress (Step.progress step) ;;
    sleep 500) ;;
  predictions <- (emit (EvPredict (length data)) ;;
                  settle (runPredict classifier data)) ;;
  endTime <- dateNow ;;
  let processingTime := endTime - startTime in
  let analysisResults :=
    {| totalSamples := length data;
       failurePredictions :=
         length (filter (fun p => Label_eqb (prediction p) failure) predictions);
       normalPredictions :=
         length (filter (fun p => Label_eqb (prediction p) normal) predictions);
       predictions := predictions;
       processingTime := processingTime |} in
  setResults (Some analysisResults) ;;
  setState Results.

Variable File : Type.
Variable parseCSV : File -> PipelineError + list SensorData.

Definition handleFileSelectWith (file : File) : M unit :=
  tryCatch
    (data <- awaitParseCSV parseCSV file ;;
     processDataWith data)
    (fun error =>
       consoleError fileErrorPrefix error ;;
       alert fileErrorAlert).

Definition handleUseSampleDataWith (sampleData : list SensorData) : M unit :=
  processDataWith sampleData.

End AnyClassifier.

Arguments processDataWith {Model} construct runPredict data.
Arguments handleFileSelectWith {Model} construct runPredict {File} parseCSV file.
Arguments handleUseSampleDataWith {Model} construct runPredict sampleData.

(** The classifier modelled above, as an instance: construction always
    succeeds and [predict] fails when no rules were loaded. *)
Definition modelledPredict (c : Classifier) (data : list SensorData)
  : PipelineError + list Prediction :=
  match rules c with
  | None => inl ModelUnavailableError
  | Some rs => inr (map (fun r => classify rs (prepare r)) data)
  end.

(** A classifier whose construction fails, and one that labels every record
    [normal]. *)
Definition failingConstruction : PipelineError + unit :=
  inl ModelUnavailableError.

Definition allNormal (_ : unit) (data : list SensorData)
  : PipelineError + list Prediction :=
  inr (map (fun r => {| pred_id := sensor_id r; prediction := normal;
                        confidence := {| agreeing := 0; voters := 0 |} |}) data).

(** ** The ingestor

    [utils/csvParser] is not part of the sources. *)

(** Modelled from the spec: the raw tabular input of section 4.1, a header row
    and the data rows, cell by cell. *)
Record RawTable : Type := mkRawTable {
  headerRow : list string;
  dataRows : list (list string)
}.

Section Ingestor.

(** Modelled from the spec: the channel set is configuration (section 3), and
    a field either reads as a finite number or counts as missing (section
    4.1). *)
Variable requiredChannels : list string.
Variable parseNumber : string -> option Q.

(** Modelled from the spec: the header declares all required channels. *)
Definition declaresAll (header : list string) : bool :=
  forallb (fun name => existsb (String.eqb name) header) requiredChannels.

(** Modelled from the spec: a data row has the column count of the header. *)
Definition sameWidth (header row : list string) : bool :=
  Nat.eqb (length row) (length header).

(** Modelled from the spec: one record per data row, in the order met, the
    row index as identifier, unreadable fields kept as missing. *)
Fixpoint toRecords (header : list string) (index : Z) (rows : list (list string))
  : list SensorData :=
  match rows with
  | [] => []
  | row :: rest =>
      {| sensor_id := index;
         channels := combine header (map parseNumber row) |}
      :: toRecords header (index + 1) rest
  end.

(** Modelled from the spec: [ingest] of section 4.1.  It fails with
    [EmptyInputError] when there are zero data rows, with [FormatError] when
    the header does not declare the required channels or a row has another
    column count than the header, and yields the records otherwise.  The
    specification does not order the checks; the data section is looked at
    first. *)
Definition ingest (t : RawTable) : PipelineError + list SensorData :=
  match dataRows t with
  | [] => inl EmptyInputError
  | _ :: _ =>
      if declaresAll (headerRow t) && forallb (sameWidth (headerRow t)) (dataRows t)
      then inr (toRecords (headerRow t) 0 (dataRows t))
      else inl FormatError
  end.

End Ingestor.

(** A table with its header and no data row, and the channels of the
    scenario. *)
Definition headerOnlyTable : RawTable :=
  {| headerRow := ["temperature"; "vibration"]; dataRows := [] |}.

Definition scenarioChannels : list string := ["temperature"; "vibration"].

Definition noNumber (_ : string) : option Q := None.

(** ** Runs in flight

    The handlers are [async]: a run executes up to its next [await], yields,
    and is resumed later, and other handlers may run in between.  A pending run
    is described by the point it will resume from; what it does when resumed is
    the next stretch of the handler's code, up to the following [await] or to
    its end. *)

(** [await parseCSV(file)] on line 58, with what the parser will settle to;
    or the timer of the loop on line 38, with the locals of [processData] and
    the steps still to come. *)
Inductive Pending : Type :=
| ParsePending (parsed : PipelineError + list SensorData)
| TimerPending (startTime : Z) (classifier : Classifier) (data : list SensorData)
    (rest : list Step.t).

(** A pending run, and whether it is inside the [try] of [handleFileSelect]. *)
Record Thread : Type := mkThread {
  guarded : bool;
  pendingAt : Pending
}.

(** Lines 41-53, after the loop. *)
Definition finishRun (startTime : Z) (classifier : Classifier)
    (data : list SensorData) : M unit :=
  predictions <- predict classifier data ;;
  endTime <- dateNow ;;
  let processingTime := endTime - startTime in
  let analysisResults :=
    {| totalSamples := length data;
       failurePredictions :=
         length (filter (fun p => Label_eqb (prediction p) failure) predictions);
       normalPredictions :=
         length (filter (fun p => Label_eqb (prediction p) normal) predictions);
       predictions := predictions;
       processingTime := processingTime |} in
  setResults (Some analysisResults) ;;
  setState Results.

(** The loop of lines 35-39 from its head: with a step left, lines 36-37 and
    the timer is awaited; with none left, the run goes on to its end. *)
Definition enterLoop (startTime : Z) (classifier : Classifier)
    (data : list SensorData) (todo : list Step.t) : M (option Pending) :=
  match todo with
  | [] => finishRun startTime classifier data ;; ret None
  | step :: rest =>
      setStatus (Step.message step) ;;
      setProgress (Step.progress step) ;;
      ret (Some (TimerPending startTime classifier data rest))
  end.

(** [processData] from line 20 to its first [await]. *)
Definition beginRun (data : list SensorData) : M (option Pending) :=
  setState Processing ;;
  setProgress 0 ;;
  startTime <- dateNow ;;
  classifier <- newMockRandomForestClassifier ;;
  enterLoop startTime classifier data steps.

(** The catch block of lines 60-63. *)
Definition catchBlock (error : PipelineError) : M (option Pending) :=
  consoleError fileErrorPrefix error ;;
  alert fileErrorAlert ;;
  ret None.

(** Resuming a pending run: the parser has settled and [processData] starts,
    or the timer has fired and the loop goes on. *)
Definition resume (t : Thread) : M (option Pending) :=
  let continue :=
    match pendingAt t with
    | ParsePending parsed =>
        data <- settle parsed ;;
        beginRun data
    | TimerPending startTime classifier data rest =>
        sleep 500 ;;
        enterLoop startTime classifier data rest
    end in
  if guarded t then tryCatch continue catchBlock else continue.

(** A run on its own, resumed as soon as it yields, at most [fuel] times. *)
Fixpoint drive (fuel : nat) (inTry : bool) (p : option Pending) : M unit :=
  match p, fuel with
  | Some q, S k => p' <- resume (mkThread inTry q) ;; drive k inTry p'
  | _, _ => ret tt
  end.

(** The component with its runs in flight. *)
Record System : Type := mkSystem {
  world : World;
  runs : list Thread
}.

(** What is left of a run after a stretch of it: the run itself if it yielded
    again, nothing if it ended or threw. *)
Definition continuation (inTry : bool) (o : Completion (option Pending)) : list Thread :=
  match o with
  | Normal (Some p) => [mkThread inTry p]
  | _ => []
  end.

(** [handleFileSelect] up to line 58: the parser is called and awaited. *)
Definition requestFile (parsed : PipelineError + list SensorData) (s : System) : System :=
  {| world := world s;
     runs := runs s ++ [mkThread true (ParsePending parsed)] |}.

(** [handleUseSampleData] up to the first timer. *)
Definition requestSample (sampleData : list SensorData) (s : System) : System :=
  {| world := final (beginRun sampleData (world s));
     runs := runs s ++ continuation false (outcome (beginRun sampleData (world s))) |}.

Definition requestReset (s : System) : System :=
  {| world := final (handleReset (world s)); runs := runs s |}.

(** The run [t], pending between the runs [before] and [after], is resumed. *)
Definition resumeRun (before : list Thread) (t : Thread) (after : list Thread)
    (w : World) : System :=
  {| world := final (resume t w);
     runs := before ++ continuation (guarded t) (outcome (resume t w)) ++ after |}.

(** One move of the component, with the events it emits: the operator uses a
    control that is on screen, a pending run is resumed, or the environment
    changes the clock, the timers or the configuration. *)
Inductive sysStep : System -> list Event -> System -> Prop :=
| stepFileSelect (s : System) (parsed : PipelineError + list SensorData) :
    In HandleFileSelect (offered (ui (world s))) ->
    sysStep s [] (requestFile parsed s)
| stepUseSampleData (s : System) (sampleData : list SensorData) :
    In HandleUseSampleData (offered (ui (world s))) ->
    sysStep s (trace (beginRun sampleData (world s))) (requestSample sampleData s)
| stepReset (s : System) :
    In HandleReset (offered (ui (world s))) ->
    sysStep s (trace (handleReset (world s))) (requestReset s)
| stepResume (before : list Thread) (t : Thread) (after : list Thread) (w : World) :
    sysStep (mkSystem w (before ++ t :: after))
            (trace (resume t w))
            (resumeRun before t after w)
| stepEnvironment (s : System) (w' : World) :
    ui w' = ui (world s) ->
    sysStep s [] (mkSystem w' (runs s)).

(** The systems the component can be in after being mounted, with everything
    emitted on the way. *)
Inductive sysReachable : list Event -> System -> Prop :=
| reachMounted (w : World) :
    ui w = initialApp ->
    sysReachable [] (mkSystem w [])
| reachStep (history : list Event) (s : System) (tr : list Event) (s' : System) :
    sysReachable history s ->
    sysStep s tr s' ->
    sysReachable (history ++ tr) s'.

(** Any number of moves. *)
Inductive sysMoves : System -> System -> Prop :=
| movesDone (s : System) : sysMoves s s
| movesMore (s : System) (tr : list Event) (s' s'' : System) :
    sysStep s tr s' -> sysMoves s' s'' -> sysMoves s s''.

(** The cells after one recorded write, and after each write of a trace. *)
Definition applyEvent (m : AppModel) (e : Event) : AppModel :=
  match e with
  | EvState s =>
      {| state := s; progress := progress m; status := status m; results := results m |}
  | EvProgress p =>
      {| state := state m; progress := p; status := status m; results := results m |}
  | EvStatus t =>
      {| state := state m; progress := progress m; status := t; results := results m |}
  | EvResults r =>
      {| state := state m; progress := progress m; status := status m; results := r |}
  | _ => m
  end.

Definition replay (m : AppModel) (tr : list Event) : AppModel :=
  fold_left applyEvent tr m.

Fixpoint cellsAlong (m : AppModel) (tr : list Event) : list AppModel :=
  match tr with
  | [] => []
  | e :: rest => applyEvent m e :: cellsAlong (applyEvent m e) rest
  end.

(** The guard of line 161 finds something to show: in state results the
    results cell is not null. *)
Definition resultsGuard (m : AppModel) : Prop :=
  state m = Results -> results m <> None.

(** The first pending run is resumed, if there is one. *)
Definition resumeFirst (s : System) : System :=
  match runs s with
  | [] => s
  | t :: after => resumeRun [] t after (world s)
  end.

(** ** Concrete systems *)

Definition mounted : System := mkSystem scenarioWorld [].

(** A file is selected; while it is being parsed the sample data is requested;
    then the parser resolves and the file's run enters [processData]. *)
Definition fileThenSample : System :=
  requestSample scenarioRows (requestFile (inr scenarioRows) mounted).

Definition overlapping : System := resumeFirst fileThenSample.

(** A sample run on its own, with a classifier without rules, resumed until
    [predict] throws. *)
Definition abandoned : System :=
  Nat.iter 5 resumeFirst (requestSample scenarioRows (mkSystem unavailableWorld [])).

(** The same system later on, with the rules back in place. *)
Definition abandonedLater : System :=
  mkSystem {| ui := ui (world abandoned); clock := 60000; lags := [];
              config := Some scenarioRules |} (runs abandoned).

(** ** Claims as the specification words them *)

(** Progress as the specification words it: strictly increasing percentages,
    the last one being 100 exactly when the run reaches the completed state. *)
Definition progressAsSpecified (r : Run unit) : Prop :=
  strictlyIncreasing (percentages (trace r)) = true /\
  (finalPercentage (percentages (trace r)) = Some 100 <->
   reachesCompleted (trace r) = true).

(** The error shown to the operator tells which stage failed: the stage can be
    read off the alerts of every failing run. *)
Definition stageIdentified : Prop :=
  exists identify : list string -> Stage,
    forall (parseCSV : unit -> PipelineError + list SensorData) (w : World)
           (e : PipelineError),
      outcome (fileSelectBody parseCSV tt w) = Throw e ->
      identify (alerts (trace (handleFileSelect parseCSV tt w))) = stage_of e.

(** At most one run is in flight at a time. *)
Definition oneRunAtATime : Prop :=
  forall (history : list Event) (s : System),
    sysReachable history s -> (length (runs s) <= 1)%nat.

(** * Properties *)

(** ** Monad law used below *)

Lemma bind_ret (A B : Type) (a : A) (k : A -> M B) (w : World) :
  bind (ret a) k w = k a w.
Proof.
  unfold bind, ret. simpl. destruct (k a w). reflexivity.
Qed.

(** ** The two ways a run of [processData] can go *)

(** Every prediction is counted by exactly one of the two filters. *)
Lemma labels_partition (ps : list Prediction) :
  (length (filter (fun p => Label_eqb (prediction p) failure) ps) +
   length (filter (fun p => Label_eqb (prediction p) normal) ps))%nat = length ps.
Proof.
  induction ps as [| p ps IH]; simpl.
  - reflexivity.
  - destruct (prediction p); simpl; lia.
Qed.

(** With the rules loaded the run goes through: every cell is written and the
    trace is the prelude, the classifier call and the two final updates. *)
Lemma processData_loaded (u : AppModel) (c : Z) (l : list Z) (rs : list Rule)
    (data : list SensorData) :
  processData data (mkWorld u c l (Some rs)) =
  let ps := map (fun r => classify rs (prepare r)) data in
  let a :=
    {| totalSamples := length data;
       failurePredictions :=
         length (filter (fun p => Label_eqb (prediction p) failure) ps);
       normalPredictions :=
         length (filter (fun p => Label_eqb (prediction p) normal) ps);
       predictions := ps;
       processingTime := fst (afterTimers 5 c l) - c |} in
  mkRun (Normal tt)
    (mkWorld
       {| state := Results; progress := 100;
          status := "Generating analysis report..."; results := Some a |}
       (fst (afterTimers 5 c l)) (snd (afterTimers 5 c l)) (Some rs))
    (preludeEvents ++ [EvPredict (length data); EvResults (Some a); EvState Results]).
Proof. reflexivity. Qed.

(** Without rules the classifier call throws after the whole prelude: the
    cells keep [processing] and 100, and no result is stored. *)
Lemma processData_unavailable (u : AppModel) (c : Z) (l : list Z)
    (data : list SensorData) :
  processData data (mkWorld u c l None) =
  mkRun (Throw ModelUnavailableError)
    (mkWorld (uiAfterSteps u) (fst (afterTimers 5 c l)) (snd (afterTimers 5 c l)) None)
    (preludeEvents ++ [EvPredict (length data)]).
Proof. reflexivity. Qed.

(** A run is accepted exactly when the rule configuration is loaded. *)
Lemma processData_accepts_iff (data : list SensorData) (w : World) :
  outcome (processData data w) = Normal tt <-> config w <> None.
Proof.
  destruct w as [u c l [rs |]].
  - rewrite processData_loaded. simpl. split; [discriminate | reflexivity].
  - rewrite processData_unavailable. simpl. split; [discriminate | congruence].
Qed.

(** The only error [processData] can end with is [ModelUnavailableError]. *)
Lemma processData_throws_only_unavailable (data : list SensorData) (w : World)
    (e : PipelineError) :
  outcome (processData data w) = Throw e -> e = ModelUnavailableError.
Proof.
  destruct w as [u c l [rs |]].
  - rewrite processData_loaded. simpl. discriminate.
  - rewrite processData_unavailable. simpl. congruence.
Qed.

(** The scenario of section 8: labels failure, normal, failure and counts
    3, 2, 1. *)
Example scenario_run :
  let r := processData scenarioRows scenarioWorld in
  option_map (fun a => (map prediction (predictions a),
                        totalSamples a, failurePredictions a, normalPredictions a))
             (results (ui (final r)))
  = Some ([failure; normal; failure], 3%nat, 2%nat, 1%nat).
Proof. reflexivity. Qed.

Lemma classify_keeps_id (rs : list Rule) (fv : FeatureVector) :
  pred_id (classify rs fv) = fv_id fv.
Proof.
  unfold classify.
  destruct (count_label normal (map (vote fv) rs) <? count_label failure (map (vote fv) rs))%nat;
    reflexivity.
Qed.

(** ** Aggregation *)

(** C1 (section 8, first property; section 3, AnalysisResult invariant).
    Every run of [processData] whose classifier has its rules loaded is
    accepted, stores exactly one analysis result, and in that result the
    failure count plus the normal count equals the total sample count. *)
Theorem processData_counts_sum_to_total (data : list SensorData) (w : World)
    (rs : list Rule) :
  config w = Some rs ->
  let r := processData data w in
  outcome r = Normal tt /\
  exists a : AnalysisResults,
    results (ui (final r)) = Some a /\
    storedResults (trace r) = [a] /\
    (failurePredictions a + normalPredictions a)%nat = totalSamples a.
Proof.
  destruct w as [u c l cfg]. intros Hcfg r. subst r.
  simpl in Hcfg. subst cfg.
  rewrite processData_loaded. simpl.
  split; [reflexivity |].
  eexists. split; [reflexivity |]. split; [reflexivity |].
  simpl. rewrite labels_partition. apply length_map.
Qed.

Lemma processData_counts_sum_to_total_witness :
  config scenarioWorld = Some scenarioRules /\
  exists a : AnalysisResults,
    results (ui (final (processData scenarioRows scenarioWorld))) = Some a /\
    storedResults (trace (processData scenarioRows scenarioWorld)) = [a] /\
    (failurePredictions a + normalPredictions a)%nat = totalSamples a.
Proof.
  split; [reflexivity |].
  apply (processData_counts_sum_to_total scenarioRows scenarioWorld scenarioRules).
  reflexivity.
Defined.

(** C2 (section 8, first property; section 3, one Prediction per record).
    In the analysis result of an accepted run the number of predictions equals
    [totalSamples], which is the number of input records. *)
Theorem processData_one_prediction_per_record (data : list SensorData) (w : World)
    (rs : list Rule) :
  config w = Some rs ->
  let r := processData data w in
  outcome r = Normal tt /\
  exists a : AnalysisResults,
    results (ui (final r)) = Some a /\
    storedResults (trace r) = [a] /\
    length (predictions a) = totalSamples a /\
    totalSamples a = length data.
Proof.
  destruct w as [u c l cfg]. intros Hcfg r. subst r.
  simpl in Hcfg. subst cfg.
  rewrite processData_loaded. simpl.
  split; [reflexivity |].
  eexists. split; [reflexivity |]. split; [reflexivity |].
  simpl. split; [apply length_map | reflexivity].
Qed.

Lemma processData_one_prediction_per_record_witness :
  config laterWorld = Some scenarioRules /\
  exists a : AnalysisResults,
    results (ui (final (processData scenarioRows laterWorld))) = Some a /\
    storedResults (trace (processData scenarioRows laterWorld)) = [a] /\
    length (predictions a) = totalSamples a /\
    totalSamples a = length scenarioRows.
Proof.
  split; [reflexivity |].
  apply (processData_one_prediction_per_record scenarioRows laterWorld scenarioRules).
  reflexivity.
Defined.

(** C3 (section 8, order preservation).  In the analysis result of an accepted
    run the identifiers of the predictions, read in order, are the identifiers
    of the input records, read in order. *)
Theorem processData_preserves_order (data : list SensorData) (w : World)
    (rs : list Rule) :
  config w = Some rs ->
  let r := processData data w in
  outcome r = Normal tt /\
  exists a : AnalysisResults,
    results (ui (final r)) = Some a /\
    storedResults (trace r) = [a] /\
    map pred_id (predictions a) = map sensor_id data.
Proof.
  destruct w as [u c l cfg]. intros Hcfg r. subst r.
  simpl in Hcfg. subst cfg.
  rewrite processData_loaded. simpl.
  split; [reflexivity |].
  eexists. split; [reflexivity |]. split; [reflexivity |].
  simpl. rewrite map_map. apply map_ext.
  intros x. apply classify_keeps_id.
Qed.

Lemma processData_preserves_order_witness :
  config scenarioWorld = Some scenarioRules /\
  exists a : AnalysisResults,
    results (ui (final (processData (rev scenarioRows) scenarioWorld))) = Some a /\
    storedResults (trace (processData (rev scenarioRows) scenarioWorld)) = [a] /\
    map pred_id (predictions a) = map sensor_id (rev scenarioRows).
Proof.
  split; [reflexivity |].
  apply (processData_preserves_order (rev scenarioRows) scenarioWorld scenarioRules).
  reflexivity.
Defined.

(** ** Notifications *)

(** C9.  Whatever the data sequence (the empty one included) and whatever the
    world, [processData] emits exactly five notifications, 20, 40, 60, 80
    and 100 with their fixed messages, in this order, and all of them before
    the classifier is called. *)
Theorem processData_five_notifications (data : list SensorData) (w : World) :
  notifications (trace (processData data w)) =
    [ ("Validating data format...", 20);
      ("Preprocessing sensor data...", 40);
      ("Loading Random Forest model...", 60);
      ("Running predictions...", 80);
      ("Generating analysis report...", 100) ] /\
  exists before after : list Event,
    trace (processData data w) = (before ++ EvPredict (length data) :: after)%list /\
    notifications before = notifications (trace (processData data w)) /\
    predictCalls before = 0%nat /\
    percentages after = [].
Proof.
  destruct w as [u c l [rs |]].
  - rewrite processData_loaded. simpl.
    split; [reflexivity |].
    exists preludeEvents. eexists.
    split; [reflexivity |]. repeat split.
  - rewrite processData_unavailable. simpl.
    split; [reflexivity |].
    exists preludeEvents, [].
    split; [reflexivity |]. repeat split.
Qed.

(** ** Reset *)

(** C10.  [handleReset] leaves the four cells at their initial values, state
    upload, progress 0, empty status and no results, whatever they held
    before, and touches nothing else. *)
Theorem handleReset_restores_initial (w : World) :
  outcome (handleReset w) = Normal tt /\
  ui (final (handleReset w)) =
    {| state := Upload; progress := 0; status := EmptyString; results := None |} /\
  clock (final (handleReset w)) = clock w /\
  lags (final (handleReset w)) = lags w /\
  config (final (handleReset w)) = config w.
Proof. repeat split. Qed.

(** ** Failure of a stage *)

Lemma handleFileSelect_on_throw (File : Type)
    (parseCSV : File -> PipelineError + list SensorData) (file : File)
    (w : World) (e : PipelineError) :
  outcome (fileSelectBody parseCSV file w) = Throw e ->
  handleFileSelect parseCSV file w =
  mkRun (Normal tt) (final (fileSelectBody parseCSV file w))
    (trace (fileSelectBody parseCSV file w) ++
     [EvConsoleError fileErrorPrefix e; EvAlert fileErrorAlert]).
Proof.
  intros H. unfold handleFileSelect, tryCatch.
  change (bind (awaitParseCSV parseCSV file) (fun data => processData data))
    with (fileSelectBody parseCSV file).
  rewrite H. reflexivity.
Qed.

(** What a failing try block has done: nothing if the parser rejected the
    file, the prelude and the classifier call otherwise. *)
Lemma fileSelectBody_on_throw (File : Type)
    (parseCSV : File -> PipelineError + list SensorData) (file : File)
    (w : World) (e : PipelineError) :
  outcome (fileSelectBody parseCSV file w) = Throw e ->
  results (ui (final (fileSelectBody parseCSV file w))) = results (ui w) /\
  alerts (trace (fileSelectBody parseCSV file w)) = [] /\
  storedResults (trace (fileSelectBody parseCSV file w)) = [] /\
  reachesCompleted (trace (fileSelectBody parseCSV file w)) = false.
Proof.
  unfold fileSelectBody, awaitParseCSV.
  destruct (parseCSV file) as [e' | rows].
  - intros _. repeat split.
  - rewrite bind_ret.
    destruct w as [u c l [rs |]].
    + rewrite processData_loaded. simpl. discriminate.
    + rewrite processData_unavailable. simpl. intros _. repeat split.
Qed.

(** C6, as stated, fails.  A file the parser rejects as malformed and a file
    that parses but meets a classifier without rules fail in different stages,
    and the operator is shown the same alert for both; the error itself only
    goes to the console, next to the alert. *)
Lemma handleFileSelect_alert_hides_stage :
  outcome (fileSelectBody rejectingParser tt scenarioWorld) = Throw FormatError /\
  outcome (fileSelectBody scenarioParser tt unavailableWorld)
    = Throw ModelUnavailableError /\
  stage_of FormatError <> stage_of ModelUnavailableError /\
  alerts (trace (handleFileSelect rejectingParser tt scenarioWorld)) =
  alerts (trace (handleFileSelect scenarioParser tt unavailableWorld)) /\
  ~ stageIdentified.
Proof.
  split; [reflexivity |]. split; [reflexivity |].
  split; [discriminate |]. split; [reflexivity |].
  intros [identify Hid].
  pose proof (Hid rejectingParser scenarioWorld FormatError eq_refl) as H1.
  pose proof (Hid scenarioParser unavailableWorld ModelUnavailableError eq_refl) as H2.
  change (alerts (trace (handleFileSelect rejectingParser tt scenarioWorld)))
    with [fileErrorAlert] in H1.
  change (alerts (trace (handleFileSelect scenarioParser tt unavailableWorld)))
    with [fileErrorAlert] in H2.
  rewrite H1 in H2. discriminate H2.
Qed.

(** C6, amended.  If the parser or [processData] throws during a run started
    by [handleFileSelect], nothing of the pipeline runs after the throw, no
    analysis result is stored and the completed state is not reached; the
    handler logs the error once to the console and raises exactly one alert,
    whose text is fixed and does not depend on the error or its stage. *)
Theorem handleFileSelect_failure (File : Type)
    (parseCSV : File -> PipelineError + list SensorData) (file : File)
    (w : World) (e : PipelineError) :
  outcome (fileSelectBody parseCSV file w) = Throw e ->
  let r := handleFileSelect parseCSV file w in
  outcome r = Normal tt /\
  trace r =
    (trace (fileSelectBody parseCSV file w) ++
     [ EvConsoleError "Error processing file:" e;
       EvAlert "Error processing file. Please check the format and try again." ])%list /\
  alerts (trace r) =
    [ "Error processing file. Please check the format and try again." ] /\
  storedResults (trace r) = [] /\
  results (ui (final r)) = results (ui w) /\
  reachesCompleted (trace r) = false.
Proof.
  intros H r. subst r.
  destruct (fileSelectBody_on_throw File parseCSV file w e H)
    as (Hres & Hal & Hst & Hcomp).
  rewrite (handleFileSelect_on_throw File parseCSV file w e H). simpl.
  split; [reflexivity |]. split; [reflexivity |].
  split.
  { clear - Hal. induction (trace (fileSelectBody parseCSV file w)) as [| ev tr IH].
    - reflexivity.
    - destruct ev; simpl in *; try (apply IH; assumption). discriminate Hal. }
  split.
  { clear - Hst. induction (trace (fileSelectBody parseCSV file w)) as [| ev tr IH].
    - reflexivity.
    - destruct ev as [| | | [a |] | | | |]; simpl in *;
        try (apply IH; assumption). discriminate Hst. }
  split; [exact Hres |].
  unfold reachesCompleted in *. rewrite existsb_app, Hcomp. reflexivity.
Qed.

Lemma handleFileSelect_failure_witness :
  outcome (fileSelectBody scenarioParser tt unavailableWorld)
    = Throw ModelUnavailableError /\
  alerts (trace (handleFileSelect scenarioParser tt unavailableWorld)) =
    [ "Error processing file. Please check the format and try again." ] /\
  storedResults (trace (handleFileSelect scenarioParser tt unavailableWorld)) = [] /\
  results (ui (final (handleFileSelect scenarioParser tt unavailableWorld))) = None.
Proof.
  split; [reflexivity |].
  pose proof (handleFileSelect_failure unit scenarioParser tt unavailableWorld
                ModelUnavailableError eq_refl) as (_ & _ & Hal & Hst & Hres & _).
  split; [exact Hal |]. split; [exact Hst | exact Hres].
Defined.

(** * Further properties of the component *)

(** ** Which controls are on screen *)

(** The upload controls are on screen exactly in state upload and the reset
    button exactly in state results, whatever the other cells hold. *)
Lemma offered_iff_state (m : AppModel) (h : Handler) :
  In h (offered m) <->
  match h with
  | HandleFileSelect => state m = Upload
  | HandleUseSampleData => state m = Upload
  | HandleReset => state m = Results
  end.
Proof.
  unfold offered, render.
  destruct m as [st p s res]; simpl.
  destruct st, res, h; simpl; split; intros H;
    repeat match goal with
           | H : _ \/ _ |- _ => destruct H
           | H : False |- _ => destruct H
           end;
    try discriminate; try reflexivity; auto.
Qed.

(** ** The three ways a file selection can go *)

Lemma handleFileSelect_rejected (File : Type)
    (parseCSV : File -> PipelineError + list SensorData) (file : File)
    (w : World) (e : PipelineError) :
  parseCSV file = inl e ->
  handleFileSelect parseCSV file w =
  mkRun (Normal tt) w [EvConsoleError fileErrorPrefix e; EvAlert fileErrorAlert].
Proof.
  intros Hparse. unfold handleFileSelect, tryCatch, awaitParseCSV.
  rewrite Hparse. reflexivity.
Qed.

Lemma handleFileSelect_parsed_loaded (File : Type)
    (parseCSV : File -> PipelineError + list SensorData) (file : File)
    (data : list SensorData) (u : AppModel) (c : Z) (l : list Z) (rs : list Rule) :
  parseCSV file = inr data ->
  handleFileSelect parseCSV file (mkWorld u c l (Some rs)) =
  processData data (mkWorld u c l (Some rs)).
Proof.
  intros Hparse. unfold handleFileSelect, tryCatch, awaitParseCSV.
  rewrite Hparse, bind_ret, processData_loaded. reflexivity.
Qed.

Lemma handleFileSelect_parsed_unavailable (File : Type)
    (parseCSV : File -> PipelineError + list SensorData) (file : File)
    (data : list SensorData) (u : AppModel) (c : Z) (l : list Z) :
  parseCSV file = inr data ->
  handleFileSelect parseCSV file (mkWorld u c l None) =
  mkRun (Normal tt)
    (final (processData data (mkWorld u c l None)))
    (trace (processData data (mkWorld u c l None)) ++
     [EvConsoleError fileErrorPrefix ModelUnavailableError; EvAlert fileErrorAlert]).
Proof.
  intros Hparse. unfold handleFileSelect, tryCatch, awaitParseCSV.
  rewrite Hparse, bind_ret, processData_unavailable. reflexivity.
Qed.

(** X4.  A file selection never throws, whatever the parser, the file and the
    world, and it ends in exactly one of two ways: one alert, no stored result
    and no completed state; or no alert and no console error, one stored
    result that the cells now hold, and the results state. *)
Theorem handleFileSelect_result_or_alert (File : Type)
    (parseCSV : File -> PipelineError + list SensorData) (file : File) (w : World) :
  let r := handleFileSelect parseCSV file w in
  outcome r = Normal tt /\
  ((alerts (trace r) =
      [ "Error processing file. Please check the format and try again." ] /\
    length (consoleErrors (trace r)) = 1%nat /\
    storedResults (trace r) = [] /\
    reachesCompleted (trace r) = false)
   \/
   (alerts (trace r) = [] /\
    consoleErrors (trace r) = [] /\
    state (ui (final r)) = Results /\
    exists a : AnalysisResults,
      storedResults (trace r) = [a] /\ results (ui (final r)) = Some a)).
Proof.
  intros r. subst r.
  destruct (parseCSV file) as [e | data] eqn:Hparse.
  - rewrite (handleFileSelect_rejected File parseCSV file w e Hparse).
    split; [reflexivity |]. left. repeat split.
  - destruct w as [u c l [rs |]].
    + rewrite (handleFileSelect_parsed_loaded File parseCSV file data u c l rs Hparse).
      rewrite processData_loaded.
      split; [reflexivity |]. right.
      split; [reflexivity |]. split; [reflexivity |]. split; [reflexivity |].
      eexists. split; reflexivity.
    + rewrite (handleFileSelect_parsed_unavailable File parseCSV file data u c l Hparse).
      rewrite processData_unavailable.
      split; [reflexivity |]. left. repeat split.
Qed.

(** X5.  When the parser rejects the file, the handler changes nothing: cells,
    clock, timers and configuration are as before, so the same screen is
    shown; no progress is reported, no timer is started and the classifier
    is not called.  All it does is log the error and raise the alert. *)
Theorem handleFileSelect_rejected_file_changes_nothing (File : Type)
    (parseCSV : File -> PipelineError + list SensorData) (file : File)
    (w : World) (e : PipelineError) :
  parseCSV file = inl e ->
  let r := handleFileSelect parseCSV file w in
  final r = w /\
  render (ui (final r)) = render (ui w) /\
  trace r =
    [ EvConsoleError "Error processing file:" e;
      EvAlert "Error processing file. Please check the format and try again." ] /\
  percentages (trace r) = [] /\
  predictCalls (trace r) = 0%nat.
Proof.
  intros Hparse r. subst r.
  rewrite (handleFileSelect_rejected File parseCSV file w e Hparse).
  repeat split.
Qed.

Lemma handleFileSelect_rejected_file_changes_nothing_witness :
  rejectingParser tt = inl FormatError /\
  final (handleFileSelect rejectingParser tt completedWorld) = completedWorld.
Proof.
  split; [reflexivity |].
  exact (proj1 (handleFileSelect_rejected_file_changes_nothing unit rejectingParser
                  tt completedWorld FormatError eq_refl)).
Defined.

(** ** Runs do not see earlier runs *)

(** X8.  What [processData] does is independent of what the four cells held
    before: started on the same data at the same time, two runs emit the same
    events and end the same way, and they leave the same state, progress and
    status.  A completed run also leaves the same result; a run that throws
    leaves the result cell as it found it. *)
Theorem processData_ignores_previous_cells (data : list SensorData)
    (u1 u2 : AppModel) (c : Z) (l : list Z) (cfg : option (list Rule)) :
  let r1 := processData data (mkWorld u1 c l cfg) in
  let r2 := processData data (mkWorld u2 c l cfg) in
  trace r1 = trace r2 /\
  outcome r1 = outcome r2 /\
  state (ui (final r1)) = state (ui (final r2)) /\
  progress (ui (final r1)) = progress (ui (final r2)) /\
  status (ui (final r1)) = status (ui (final r2)) /\
  clock (final r1) = clock (final r2) /\
  ((outcome r1 = Normal tt /\ results (ui (final r1)) = results (ui (final r2))) \/
   (outcome r1 = Throw ModelUnavailableError /\
    results (ui (final r1)) = results u1 /\
    results (ui (final r2)) = results u2)).
Proof.
  intros r1 r2. subst r1 r2. destruct cfg as [rs |].
  - rewrite !processData_loaded. simpl. repeat split. left. split; reflexivity.
  - rewrite !processData_unavailable. simpl. repeat split. right. repeat split.
Qed.

(** ** File and sample data take the same path *)




(** ** Progress, whatever the classifier does *)

(** The three ways a run over an open classifier can go: construction throws
    before the loop, [predict] throws after it, or the run completes. *)
Lemma processDataWith_construction_fails (Model : Type)
    (runPredict : Model -> list SensorData -> PipelineError + list Prediction)
    (e : PipelineError) (data : list SensorData) (w : World) :
  processDataWith (inl e) runPredict data w =
  mkRun (Throw e)
    (mkWorld {| state := Processing; progress := 0;
                status := status (ui w); results := results (ui w) |}
             (clock w) (lags w) (config w))
    [EvState Processing; EvProgress 0].
Proof. reflexivity. Qed.

Lemma processDataWith_predict_fails (Model : Type) (m : Model)
    (runPredict : Model -> list SensorData -> PipelineError + list Prediction)
    (e : PipelineError) (data : list SensorData) (w : World) :
  runPredict m data = inl e ->
  processDataWith (inr m) runPredict data w =
  mkRun (Throw e)
    (mkWorld (uiAfterSteps (ui w))
             (fst (afterTimers 5 (clock w) (lags w)))
             (snd (afterTimers 5 (clock w) (lags w))) (config w))
    (preludeEvents ++ [EvPredict (length data)]).
Proof.
  intros Hrun.
  change (processDataWith (inr m) runPredict data w)
    with (processDataWith (inr tt) (fun _ _ => runPredict m data) data w).
  rewrite Hrun. reflexivity.
Qed.

Lemma processDataWith_completes (Model : Type) (m : Model)
    (runPredict : Model -> list SensorData -> PipelineError + list Prediction)
    (ps : list Prediction) (data : list SensorData) (w : World) :
  runPredict m data = inr ps ->
  processDataWith (inr m) runPredict data w =
  let a :=
    {| totalSamples := length data;
       failurePredictions :=
         length (filter (fun p => Label_eqb (prediction p) failure) ps);
       normalPredictions :=
         length (filter (fun p => Label_eqb (prediction p) normal) ps);
       predictions := ps;
       processingTime := fst (afterTimers 5 (clock w) (lags w)) - clock w |} in
  mkRun (Normal tt)
    (mkWorld
       {| state := Results; progress := 100;
          status := "Generating analysis report..."; results := Some a |}
       (fst (afterTimers 5 (clock w) (lags w)))
       (snd (afterTimers 5 (clock w) (lags w))) (config w))
    (preludeEvents ++ [EvPredict (length data); EvResults (Some a); EvState Results]).
Proof.
  intros Hrun.
  change (processDataWith (inr m) runPredict data w)
    with (processDataWith (inr tt) (fun _ _ => runPredict m data) data w).
  rewrite Hrun. reflexivity.
Qed.

(** The modelled classifier is one instance of the open one. *)
Lemma processData_instance (data : list SensorData) (w : World) :
  processData data w =
  processDataWith (inr {| rules := config w |}) modelledPredict data w.
Proof.
  destruct w as [u c l [rs |]]; cbn [config].
  - rewrite processData_loaded.
    rewrite (processDataWith_completes Classifier {| rules := Some rs |} modelledPredict
               (map (fun r => classify rs (prepare r)) data) data
               (mkWorld u c l (Some rs)) eq_refl).
    reflexivity.
  - rewrite processData_unavailable.
    rewrite (processDataWith_predict_fails Classifier {| rules := None |} modelledPredict
               ModelUnavailableError data (mkWorld u c l None) eq_refl).
    reflexivity.
Qed.

Lemma handleFileSelectWith_rejected (Model : Type) (construct : PipelineError + Model)
    (runPredict : Model -> list SensorData -> PipelineError + list Prediction)
    (File : Type) (parseCSV : File -> PipelineError + list SensorData) (file : File)
    (w : World) (e : PipelineError) :
  parseCSV file = inl e ->
  handleFileSelectWith construct runPredict parseCSV file w =
  mkRun (Normal tt) w [EvConsoleError fileErrorPrefix e; EvAlert fileErrorAlert].
Proof.
  intros Hparse. unfold handleFileSelectWith, tryCatch, awaitParseCSV.
  rewrite Hparse. reflexivity.
Qed.

(** On a parsed file the handler is the run itself, followed after a throw by
    the console entry and the alert. *)
Lemma handleFileSelectWith_parsed (Model : Type) (construct : PipelineError + Model)
    (runPredict : Model -> list SensorData -> PipelineError + list Prediction)
    (File : Type) (parseCSV : File -> PipelineError + list SensorData) (file : File)
    (data : list SensorData) (w : World) :
  parseCSV file = inr data ->
  handleFileSelectWith construct runPredict parseCSV file w =
  match outcome (processDataWith construct runPredict data w) with
  | Normal _ => processDataWith construct runPredict data w
  | Throw e =>
      mkRun (Normal tt) (final (processDataWith construct runPredict data w))
        (trace (processDataWith construct runPredict data w) ++
         [EvConsoleError fileErrorPrefix e; EvAlert fileErrorAlert])
  end.
Proof.
  intros Hparse. unfold handleFileSelectWith, tryCatch, awaitParseCSV.
  rewrite Hparse, bind_ret.
  destruct (outcome (processDataWith construct runPredict data w)); reflexivity.
Qed.

Lemma processDataWith_progress (Model : Type) (construct : PipelineError + Model)
    (runPredict : Model -> list SensorData -> PipelineError + list Prediction)
    (data : list SensorData) (w : World) :
  (forall m d, exists ps, runPredict m d = inr ps) ->
  progressAsSpecified (processDataWith construct runPredict data w) /\
  (forall e, outcome (processDataWith construct runPredict data w) = Throw e ->
             percentages (trace (processDataWith construct runPredict data w)) = [0]).
Proof.
  intros Hreturns. destruct construct as [e | m].
  - rewrite processDataWith_construction_fails. unfold progressAsSpecified. simpl.
    split; [| reflexivity].
    split; [reflexivity |]. split; discriminate.
  - destruct (Hreturns m data) as [ps Hps].
    rewrite (processDataWith_completes Model m runPredict ps data w Hps).
    unfold progressAsSpecified. simpl.
    split; [| discriminate].
    split; [reflexivity |]. split; reflexivity.
Qed.



(** ** A run that throws *)



(** ** Empty data *)

(** X10.  [processData] has no emptiness check of its own: handed zero rows,
    and a classifier that returns on them, it goes through the five
    notifications, calls [predict] once and stores a result with
    [totalSamples] 0 and whatever predictions the classifier returned, ending
    in state results. *)
Theorem processData_accepts_empty_data (Model : Type) (m : Model)
    (runPredict : Model -> list SensorData -> PipelineError + list Prediction)
    (ps : list Prediction) (w : World) :
  runPredict m [] = inr ps ->
  let r := processDataWith (inr m) runPredict [] w in
  outcome r = Normal tt /\
  state (ui (final r)) = Results /\
  length (notifications (trace r)) = 5%nat /\
  predictCalls (trace r) = 1%nat /\
  exists a : AnalysisResults,
    storedResults (trace r) = [a] /\
    results (ui (final r)) = Some a /\
    totalSamples a = 0%nat /\
    predictions a = ps.
Proof.
  intros Hrun r. subst r.
  rewrite (processDataWith_completes Model m runPredict ps [] w Hrun). simpl.
  repeat split. eexists. repeat split.
Qed.

Lemma processData_accepts_empty_data_witness :
  modelledPredict {| rules := Some scenarioRules |} [] = inr [] /\
  outcome (processDataWith (inr {| rules := Some scenarioRules |}) modelledPredict
             [] scenarioWorld) = Normal tt.
Proof.
  split; [reflexivity |].
  exact (proj1 (processData_accepts_empty_data Classifier
                  {| rules := Some scenarioRules |} modelledPredict []
                  scenarioWorld eq_refl)).
Defined.

(** ** Empty input *)

Lemma ingest_empty (requiredChannels : list string)
    (parseNumber : string -> option Q) (t : RawTable) :
  dataRows t = [] ->
  ingest requiredChannels parseNumber t = inl EmptyInputError.
Proof.
  intros Hrows. unfold ingest. rewrite Hrows. reflexivity.
Qed.

(** The ingestor keeps one record per data row. *)
Lemma toRecords_length (parseNumber : string -> option Q) (header : list string)
    (index : Z) (rows : list (list string)) :
  length (toRecords parseNumber header index rows) = length rows.
Proof.
  revert index. induction rows as [| row rows IH]; intros index; simpl.
  - reflexivity.
  - rewrite IH. reflexivity.
Qed.

(** C5 (section 4.1; section 8, empty data section).  When the input has zero
    data rows, the ingestor rejects it with [EmptyInputError] and the run
    started on it fails with that error: the handler logs it and raises its
    alert, [processData] is never entered, no analysis result is stored and
    the cells are left as they were. *)
Theorem empty_input_fails_with_EmptyInputError (requiredChannels : list string)
    (parseNumber : string -> option Q) (t : RawTable) (w : World) :
  dataRows t = [] ->
  let r := handleFileSelect (ingest requiredChannels parseNumber) t w in
  outcome (fileSelectBody (ingest requiredChannels parseNumber) t w)
    = Throw EmptyInputError /\
  consoleErrors (trace r) = [EmptyInputError] /\
  alerts (trace r) =
    [ "Error processing file. Please check the format and try again." ] /\
  storedResults (trace r) = [] /\
  reachesCompleted (trace r) = false /\
  percentages (trace r) = [] /\
  predictCalls (trace r) = 0%nat /\
  final r = w.
Proof.
  intros Hrows r. subst r.
  pose proof (ingest_empty requiredChannels parseNumber t Hrows) as Hingest.
  rewrite (handleFileSelect_rejected RawTable (ingest requiredChannels parseNumber)
             t w EmptyInputError Hingest).
  unfold fileSelectBody, awaitParseCSV. rewrite Hingest.
  repeat split.
Qed.

Lemma empty_input_fails_with_EmptyInputError_witness :
  dataRows headerOnlyTable = [] /\
  storedResults
    (trace (handleFileSelect (ingest scenarioChannels noNumber) headerOnlyTable
              scenarioWorld)) = [] /\
  results (ui (final (handleFileSelect (ingest scenarioChannels noNumber)
                        headerOnlyTable scenarioWorld))) = None.
Proof.
  split; [reflexivity |].
  pose proof (empty_input_fails_with_EmptyInputError scenarioChannels noNumber
                headerOnlyTable scenarioWorld eq_refl)
    as (_ & _ & _ & Hstored & _ & _ & _ & Hfinal).
  split; [exact Hstored |].
  rewrite Hfinal. reflexivity.
Defined.

(** ** Runs in flight: what each stretch does *)

Lemma beginRun_yields (data : list SensorData) (u : AppModel) (c : Z) (l : list Z)
    (cfg : option (list Rule)) :
  beginRun data (mkWorld u c l cfg) =
  mkRun
    (Normal (Some (TimerPending c {| rules := cfg |} data (tl steps))))
    (mkWorld {| state := Processing; progress := 20;
                status := "Validating data format..."; results := results u |}
             c l cfg)
    [ EvState Processing; EvProgress 0;
      EvStatus "Validating data format..."; EvProgress 20 ].
Proof. reflexivity. Qed.

Lemma resume_timer_next (inTry : bool) (startTime : Z) (classifier : Classifier)
    (data : list SensorData) (step : Step.t) (rest : list Step.t)
    (u : AppModel) (c : Z) (l : list Z) (cfg : option (list Rule)) :
  resume (mkThread inTry (TimerPending startTime classifier data (step :: rest)))
         (mkWorld u c l cfg) =
  mkRun
    (Normal (Some (TimerPending startTime classifier data rest)))
    (mkWorld {| state := state u; progress := Step.progress step;
                status := Step.message step; results := results u |}
             (c + 500 + hd 0 l) (tl l) cfg)
    [ EvTimeout 500; EvStatus (Step.message step); EvProgress (Step.progress step) ].
Proof. destruct inTry; reflexivity. Qed.

Lemma resume_timer_last_loaded (inTry : bool) (startTime : Z) (rs : list Rule)
    (data : list SensorData) (u : AppModel) (c : Z) (l : list Z)
    (cfg : option (list Rule)) :
  resume (mkThread inTry (TimerPending startTime {| rules := Some rs |} data []))
         (mkWorld u c l cfg) =
  let ps := map (fun r => classify rs (prepare r)) data in
  let a :=
    {| totalSamples := length data;
       failurePredictions :=
         length (filter (fun p => Label_eqb (prediction p) failure) ps);
       normalPredictions :=
         length (filter (fun p => Label_eqb (prediction p) normal) ps);
       predictions := ps;
       processingTime := c + 500 + hd 0 l - startTime |} in
  mkRun (Normal None)
    (mkWorld {| state := Results; progress := progress u;
                status := status u; results := Some a |}
             (c + 500 + hd 0 l) (tl l) cfg)
    [ EvTimeout 500; EvPredict (length data); EvResults (Some a); EvState Results ].
Proof. destruct inTry; reflexivity. Qed.

Lemma resume_timer_last_unavailable (inTry : bool) (startTime : Z)
    (data : list SensorData) (u : AppModel) (c : Z) (l : list Z)
    (cfg : option (list Rule)) :
  resume (mkThread inTry (TimerPending startTime {| rules := None |} data []))
         (mkWorld u c l cfg) =
  mkRun
    (if inTry then Normal None else Throw ModelUnavailableError)
    (mkWorld u (c + 500 + hd 0 l) (tl l) cfg)
    ([ EvTimeout 500; EvPredict (length data) ] ++
     (if inTry
      then [ EvConsoleError fileErrorPrefix ModelUnavailableError;
             EvAlert fileErrorAlert ]
      else [])).
Proof. destruct inTry, u; reflexivity. Qed.

Lemma resume_parse_thrown (inTry : bool) (e : PipelineError) (w : World) :
  resume (mkThread inTry (ParsePending (inl e))) w =
  mkRun (if inTry then Normal None else Throw e) w
    (if inTry
     then [EvConsoleError fileErrorPrefix e; EvAlert fileErrorAlert]
     else []).
Proof. destruct inTry; reflexivity. Qed.

Lemma resume_parse_started (inTry : bool) (data : list SensorData) (u : AppModel)
    (c : Z) (l : list Z) (cfg : option (list Rule)) :
  resume (mkThread inTry (ParsePending (inr data))) (mkWorld u c l cfg) =
  beginRun data (mkWorld u c l cfg).
Proof. destruct inTry; reflexivity. Qed.

Lemma resume_parse_rejected (e : PipelineError) (w : World) :
  resume (mkThread true (ParsePending (inl e))) w =
  mkRun (Normal None) w [EvConsoleError fileErrorPrefix e; EvAlert fileErrorAlert].
Proof. reflexivity. Qed.

Lemma resume_parse_resolved (data : list SensorData) (u : AppModel) (c : Z)
    (l : list Z) (cfg : option (list Rule)) :
  resume (mkThread true (ParsePending (inr data))) (mkWorld u c l cfg) =
  beginRun data (mkWorld u c l cfg).
Proof. reflexivity. Qed.

(** A run on its own, resumed five times, is the handler in one piece. *)
Lemma lone_sample_run (data : list SensorData) (w : World) :
  (p <- beginRun data ;; drive 5 false p) w = processData data w.
Proof.
  destruct w as [u c l [rs |]].
  - rewrite processData_loaded. reflexivity.
  - rewrite processData_unavailable. destruct u. reflexivity.
Qed.

Lemma lone_file_run (File : Type)
    (parseCSV : File -> PipelineError + list SensorData) (file : File) (w : World) :
  (p <- resume (mkThread true (ParsePending (parseCSV file))) ;; drive 5 true p) w =
  handleFileSelect parseCSV file w.
Proof.
  destruct (parseCSV file) as [e | data] eqn:Hparse.
  - rewrite (handleFileSelect_rejected File parseCSV file w e Hparse). reflexivity.
  - destruct w as [u c l [rs |]].
    + rewrite (handleFileSelect_parsed_loaded File parseCSV file data u c l rs Hparse).
      rewrite processData_loaded. reflexivity.
    + rewrite (handleFileSelect_parsed_unavailable File parseCSV file data u c l Hparse).
      rewrite processData_unavailable. destruct u. reflexivity.
Qed.

(** ** Runs in flight: the whole component *)

Lemma resumeFirst_reachable (history : list Event) (s : System) :
  sysReachable history s ->
  exists history' : list Event, sysReachable history' (resumeFirst s).
Proof.
  intros Hreach. destruct s as [w [| t after]].
  - exists history. exact Hreach.
  - eexists. eapply reachStep; [exact Hreach |].
    exact (stepResume [] t after w).
Qed.

Lemma overlapping_reachable :
  sysReachable
    [ EvState Processing; EvProgress 0;
      EvStatus "Validating data format..."; EvProgress 20;
      EvState Processing; EvProgress 0;
      EvStatus "Validating data format..."; EvProgress 20 ]
    overlapping.
Proof.
  assert (H0 : sysReachable [] mounted).
  { apply reachMounted. reflexivity. }
  assert (H1 : sysReachable ([] ++ []) (requestFile (inr scenarioRows) mounted)).
  { eapply reachStep; [exact H0 |].
    apply stepFileSelect. simpl. left. reflexivity. }
  pose proof (reachStep _ _ _ _ H1
                (stepUseSampleData (requestFile (inr scenarioRows) mounted) scenarioRows
                   (or_intror (or_introl eq_refl)))) as H2.
  exact (reachStep _ _ _ _ H2
           (stepResume [] (mkThread true (ParsePending (inr scenarioRows)))
              (skipn 1 (runs fileThenSample)) (world fileThenSample))).
Qed.

(** C8, as stated, fails.  A file is selected; while the parser is pending the
    upload panel is still on screen and the sample data is requested; the
    request is accepted, and when the parser resolves two runs are in their
    loops at once.  Nothing was rejected, logged or alerted on the way. *)
Lemma second_request_is_accepted :
  In HandleUseSampleData
     (offered (ui (world (requestFile (inr scenarioRows) mounted)))) /\
  length (runs (requestFile (inr scenarioRows) mounted)) = 1%nat /\
  length (runs fileThenSample) = 2%nat /\
  (exists history : list Event,
     sysReachable history overlapping /\
     consoleErrors history = [] /\
     alerts history = []) /\
  map guarded (runs overlapping) = [true; false] /\
  (forall t, In t (runs overlapping) ->
             exists startTime classifier data rest,
               pendingAt t = TimerPending startTime classifier data rest) /\
  ~ oneRunAtATime.
Proof.
  split; [simpl; right; left; reflexivity |].
  split; [reflexivity |]. split; [reflexivity |].
  split; [eexists; split; [exact overlapping_reachable | split; reflexivity] |].
  split; [reflexivity |].
  split.
  - intros t [<- | [<- | []]]; repeat eexists.
  - intros Hone.
    pose proof (Hone _ _ overlapping_reachable) as Hlen.
    change (length (runs overlapping)) with 2%nat in Hlen. lia.
Qed.

(** C8, amended.  No request is refused and nothing raises [BusyError]:
    whatever runs are pending, a sample request starts one more run and a file
    request one more parse.  What the component has instead is its rendering:
    the controls on screen depend on the state cell alone (upload controls
    exactly in state upload, the reset button exactly in state results); a
    sample request has put the state to processing when it first yields, so no
    control is on screen then; a file request leaves the cells as they are
    while the parser is pending; and a run resumed inside its loop goes on to
    the next timer without writing the state cell. *)
Theorem requests_are_never_refused (s : System) (sampleData : list SensorData)
    (parsed : PipelineError + list SensorData) :
  (forall h : Handler,
     In h (offered (ui (world s))) <->
     match h with
     | HandleFileSelect => state (ui (world s)) = Upload
     | HandleUseSampleData => state (ui (world s)) = Upload
     | HandleReset => state (ui (world s)) = Results
     end) /\
  (exists t : Thread,
     runs (requestSample sampleData s) = (runs s ++ [t])%list /\ guarded t = false) /\
  state (ui (world (requestSample sampleData s))) = Processing /\
  offered (ui (world (requestSample sampleData s))) = [] /\
  world (requestFile parsed s) = world s /\
  runs (requestFile parsed s) = (runs s ++ [mkThread true (ParsePending parsed)])%list /\
  (forall (inTry : bool) (startTime : Z) (classifier : Classifier)
          (data : list SensorData) (step : Step.t) (rest : list Step.t) (w : World),
     outcome (resume (mkThread inTry
                        (TimerPending startTime classifier data (step :: rest))) w)
       = Normal (Some (TimerPending startTime classifier data rest)) /\
     state (ui (final (resume (mkThread inTry
                                 (TimerPending startTime classifier data (step :: rest)))
                              w)))
       = state (ui w)) /\
  (forall (t : Thread) (w : World),
     guarded t = true \/
     (exists startTime classifier data rest,
        pendingAt t = TimerPending startTime classifier data rest) ->
     outcome (resume t w) <> Throw BusyError).
Proof.
  destruct s as [[u c l cfg] pending].
  split; [intros h; apply offered_iff_state |].
  unfold requestSample, requestFile. cbn [world runs].
  rewrite beginRun_yields. cbn [outcome final continuation ui state].
  split; [eexists; split; reflexivity |].
  split; [reflexivity |]. split; [reflexivity |].
  split; [reflexivity |]. split; [reflexivity |].
  split.
  - intros inTry startTime classifier data step rest [u' c' l' cfg'].
    rewrite resume_timer_next. split; reflexivity.
  - intros [inTry [parsed' | startTime [[rs |]] data [| step rest]]] [u' c' l' cfg'] Hshape;
      cbn [guarded pendingAt] in Hshape.
    + destruct Hshape as [-> | (? & ? & ? & ? & Hp)]; [| discriminate Hp].
      destruct parsed' as [e | data].
      * rewrite resume_parse_rejected. discriminate.
      * rewrite resume_parse_resolved, beginRun_yields. discriminate.
    + rewrite resume_timer_last_loaded. discriminate.
    + rewrite resume_timer_next. discriminate.
    + rewrite resume_timer_last_unavailable. destruct inTry; discriminate.
    + rewrite resume_timer_next. discriminate.
Qed.

(** ** The results view always has something to show *)

Lemma replay_app (m : AppModel) (tr tr' : list Event) :
  replay m (tr ++ tr') = replay (replay m tr) tr'.
Proof. unfold replay. apply fold_left_app. Qed.

Lemma cellsAlong_app (m : AppModel) (tr tr' : list Event) :
  cellsAlong m (tr ++ tr') = (cellsAlong m tr ++ cellsAlong (replay m tr) tr')%list.
Proof.
  revert m. induction tr as [| e tr IH]; intros m; simpl.
  - reflexivity.
  - rewrite IH. reflexivity.
Qed.

(** Every move records all its writes to the cells, and keeps the guard at
    each of them. *)
Lemma sysStep_writes (s : System) (tr : list Event) (s' : System) :
  sysStep s tr s' ->
  ui (world s') = replay (ui (world s)) tr /\
  (resultsGuard (ui (world s)) ->
   Forall resultsGuard (cellsAlong (ui (world s)) tr)).
Proof.
  intros Hstep.
  destruct Hstep as [s parsed Hin | s sampleData Hin | s Hin
                    | before t after w | s w' Hui].
  - split; [reflexivity | intros _; constructor].
  - destruct s as [[[st p msg res] c l cfg] pending].
    unfold requestSample. cbn [world]. rewrite beginRun_yields.
    split; [reflexivity |].
    intros Hguard. cbn [trace ui].
    repeat constructor; unfold resultsGuard; simpl; discriminate.
  - destruct s as [[[st p msg res] c l cfg] pending].
    split; [reflexivity |].
    intros Hguard. repeat constructor; unfold resultsGuard; simpl; discriminate.
  - destruct w as [[st p msg res] c l cfg].
    unfold resumeRun. cbn [world].
    destruct t as [inTry [parsed | startTime [[rs |]] data [| step rest]]].
    + destruct parsed as [e | data].
      * rewrite resume_parse_thrown.
        split; [destruct inTry; reflexivity |].
        intros Hguard. destruct inTry; repeat constructor; exact Hguard.
      * rewrite resume_parse_started, beginRun_yields.
        split; [reflexivity |].
        intros Hguard. repeat constructor; unfold resultsGuard; simpl; discriminate.
    + rewrite resume_timer_last_loaded.
      split; [reflexivity |].
      intros Hguard. repeat constructor; unfold resultsGuard; simpl;
        try discriminate; exact Hguard.
    + rewrite resume_timer_next.
      split; [reflexivity |].
      intros Hguard. repeat constructor; unfold resultsGuard; simpl; exact Hguard.
    + rewrite resume_timer_last_unavailable.
      split; [destruct inTry; reflexivity |].
      intros Hguard. destruct inTry; repeat constructor; exact Hguard.
    + rewrite resume_timer_next.
      split; [reflexivity |].
      intros Hguard. repeat constructor; unfold resultsGuard; simpl; exact Hguard.
  - split; [simpl; exact Hui | intros _; constructor].
Qed.

Lemma guard_at_last_write (m : AppModel) (evs : list Event) (e : Event) :
  Forall resultsGuard (cellsAlong m (e :: evs)) ->
  resultsGuard (replay m (e :: evs)).
Proof.
  revert m e. induction evs as [| e' evs IH]; intros m e Hall.
  - apply Forall_cons_iff in Hall. exact (proj1 Hall).
  - apply Forall_cons_iff in Hall.
    change (replay m (e :: e' :: evs)) with (replay (applyEvent m e) (e' :: evs)).
    apply IH. exact (proj2 Hall).
Qed.

(** X1.  In every interleaving of file selections, sample requests, resets
    and resumptions of pending runs, overlapping runs included, the recorded
    writes account for the cells, and after each single write the guard of the
    results view holds: whenever the state cell reads results, the results
    cell is not null.  [processData] stores the result before it switches the
    state, and [handleReset] leaves the results state before it clears the
    result. *)
Theorem results_guard_in_every_interleaving (history : list Event) (s : System) :
  sysReachable history s ->
  ui (world s) = replay initialApp history /\
  Forall resultsGuard (cellsAlong initialApp history) /\
  resultsGuard (ui (world s)).
Proof.
  induction 1 as [w Hinit | history s tr s' _ IH Hstep].
  - cbn [world]. rewrite Hinit.
    split; [reflexivity |]. split; [constructor |].
    unfold resultsGuard. simpl. discriminate.
  - destruct IH as (Hui & Hall & Hguard).
    destruct (sysStep_writes s tr s' Hstep) as [Hwrites Hkeeps].
    assert (Hui' : ui (world s') = replay initialApp (history ++ tr)).
    { rewrite replay_app, <- Hui. exact Hwrites. }
    assert (Hall' : Forall resultsGuard (cellsAlong initialApp (history ++ tr))).
    { rewrite cellsAlong_app. apply Forall_app. split; [exact Hall |].
      rewrite <- Hui. exact (Hkeeps Hguard). }
    split; [exact Hui' |]. split; [exact Hall' |].
    destruct tr as [| e tr].
    + rewrite Hwrites. exact Hguard.
    + rewrite Hwrites. apply guard_at_last_write. exact (Hkeeps Hguard).
Qed.

Lemma results_guard_in_every_interleaving_witness :
  sysReachable
    [ EvState Processing; EvProgress 0;
      EvStatus "Validating data format..."; EvProgress 20;
      EvState Processing; EvProgress 0;
      EvStatus "Validating data format..."; EvProgress 20 ]
    overlapping /\
  resultsGuard (ui (world overlapping)).
Proof.
  split; [exact overlapping_reachable |].
  exact (proj2 (proj2 (results_guard_in_every_interleaving _ _ overlapping_reachable))).
Defined.

(** ** After an uncaught throw *)

Lemma abandoned_reachable :
  exists history : list Event, sysReachable history abandoned.
Proof.
  assert (H0 : exists history : list Event,
             sysReachable history
               (requestSample scenarioRows (mkSystem unavailableWorld []))).
  { exists ([] ++ trace (beginRun scenarioRows unavailableWorld))%list.
    apply (reachStep [] (mkSystem unavailableWorld [])).
    - apply reachMounted. reflexivity.
    - apply (stepUseSampleData (mkSystem unavailableWorld []) scenarioRows).
      simpl. right. left. reflexivity. }
  unfold abandoned.
  generalize 5%nat. intros n. induction n as [| n IHn].
  - exact H0.
  - destruct IHn as [history Hreach].
    exact (resumeFirst_reachable history _ Hreach).
Qed.

Lemma sysStep_from_rest (s : System) (tr : list Event) (s' : System) :
  runs s = [] ->
  state (ui (world s)) = Processing ->
  sysStep s tr s' ->
  ui (world s') = ui (world s) /\ runs s' = [] /\ tr = [].
Proof.
  intros Hruns Hstate Hstep.
  destruct Hstep as [s parsed Hin | s sampleData Hin | s Hin
                    | before t after w | s w' Hui].
  - apply offered_iff_state in Hin. congruence.
  - apply offered_iff_state in Hin. congruence.
  - apply offered_iff_state in Hin. congruence.
  - cbn [runs] in Hruns. destruct before; discriminate Hruns.
  - cbn [world runs]. repeat split; assumption.
Qed.

(** X3.  When the state cell reads processing and no run is pending, which
    is how an uncaught throw of [processData] leaves the component, nothing
    moves any more: no control is on screen and nothing is left to resume, so
    whatever happens next the cells stay as they are and no run starts. *)
Theorem processing_without_runs_is_dead_end (s s' : System) :
  runs s = [] ->
  state (ui (world s)) = Processing ->
  sysMoves s s' ->
  ui (world s') = ui (world s) /\
  runs s' = [] /\
  offered (ui (world s')) = [].
Proof.
  intros Hruns Hstate Hmoves.
  induction Hmoves as [s | s tr s1 s2 Hstep _ IH].
  - split; [reflexivity |]. split; [exact Hruns |].
    unfold offered, render. rewrite Hstate. reflexivity.
  - destruct (sysStep_from_rest s tr s1 Hruns Hstate Hstep) as (Hui & Hruns1 & _).
    rewrite <- Hui. apply IH; [exact Hruns1 | rewrite Hui; exact Hstate].
Qed.

Lemma processing_without_runs_is_dead_end_witness :
  (exists history : list Event, sysReachable history abandoned) /\
  runs abandoned = [] /\
  state (ui (world abandoned)) = Processing /\
  sysMoves abandoned abandonedLater /\
  offered (ui (world abandonedLater)) = [].
Proof.
  assert (Hruns : runs abandoned = []).
  { vm_compute. reflexivity. }
  assert (Hstate : state (ui (world abandoned)) = Processing).
  { vm_compute. reflexivity. }
  assert (Hui : ui (world abandonedLater) = ui (world abandoned)).
  { vm_compute. reflexivity. }
  assert (Hmoves : sysMoves abandoned abandonedLater).
  { apply (movesMore abandoned [] abandonedLater abandonedLater).
    - exact (stepEnvironment abandoned (world abandonedLater) Hui).
    - apply movesDone. }
  split; [exact abandoned_reachable |].
  split; [exact Hruns |]. split; [exact Hstate |]. split; [exact Hmoves |].
  exact (proj2 (proj2 (processing_without_runs_is_dead_end abandoned abandonedLater
                         Hruns Hstate Hmoves))).
Defined.
